(** * The custom population classifier of the reclassification notebook

    The notebook defines one function of its own,

<<
    def classify_population(POP):
        if POP < 50:
            return 'Low'
        elif 50 <= POP < 250:
            return 'Medium'
        else:
            return 'High'
>>

    and maps it over the [POP] column of a table.  Everything else in the
    notebooks is a call into geopandas, mapclassify or matplotlib.

    This file embeds the function over a small model of the Python values
    it can be applied to (ints, bools, floats with their IEEE special
    values, strings and [None]), in a state-and-exception monad over the
    notebook's global namespace, and proves the properties below. *)

From Stdlib Require Import ZArith QArith Lqa Lia Bool List String.
From Stdlib Require Import Floats.SpecFloat.
Import ListNotations.

Local Open Scope string_scope.
Local Open Scope Z_scope.

(** ** Python values *)

(** The values the column can hold.  A float is kept as its IEEE datum
    (sign, mantissa, exponent, or one of the special values). *)
Inductive pyval : Type :=
| PyNone
| PyBool (b : bool)
| PyInt (z : Z)
| PyFloat (f : spec_float)
| PyStr (s : string).

(** Exceptions.  [TypeError] is what an ordering comparison between
    unordered types raises.  [UnclassifiableValueError] is never raised by
    the notebook; it belongs to the rule-table classifier of the
    specification, see [custom_classify]. *)
Inductive exn : Type :=
| TypeError
| UnclassifiableValueError.

Inductive outcome (A : Type) : Type :=
| Returned (a : A)
| Raised (e : exn).
Arguments Returned {A} a.
Arguments Raised {A} e.

(** The notebook's global namespace: the names bound by earlier cells. *)
Definition namespace : Type := list (string * pyval).

(** ** Computations: global state and exceptions *)

Definition Py (A : Type) : Type := namespace -> outcome A * namespace.

Definition ret {A : Type} (a : A) : Py A := fun g => (Returned a, g).

Definition raise {A : Type} (e : exn) : Py A := fun g => (Raised e, g).

Definition bind {A B : Type} (m : Py A) (k : A -> Py B) : Py B :=
  fun g =>
    match m g with
    | (Returned a, g') => k a g'
    | (Raised e, g') => (Raised e, g')
    end.

Declare Scope py_scope.
Delimit Scope py_scope with py.
Notation "x <- m ;; k" := (bind m (fun x => k))
  (at level 100, m at next level, right associativity) : py_scope.
Local Open Scope py_scope.

(** ** Numbers and their order *)

(** The mathematical value of a number: a rational, an infinity, or NaN. *)
Inductive xreal : Type :=
| XNaN
| XNegInf
| XFin (q : Q)
| XPosInf.

Definition signed (s : bool) (m : positive) : Z :=
  if s then Z.neg m else Z.pos m.

Definition float_value (f : spec_float) : xreal :=
  match f with
  | S754_zero _ => XFin 0
  | S754_infinity s => if s then XNegInf else XPosInf
  | S754_nan => XNaN
  | S754_finite s m e => XFin (inject_Z (signed s m) * (2 ^ e))%Q
  end.

(** [bool] is a subclass of [int]: [True] is 1 and [False] is 0. *)
Definition num_value (v : pyval) : option xreal :=
  match v with
  | PyBool b => Some (XFin (if b then 1 else 0))
  | PyInt z => Some (XFin (inject_Z z))
  | PyFloat f => Some (float_value f)
  | PyNone | PyStr _ => None
  end.

(** Comparison of two numbers; there is none when either is NaN.  Python
    compares an int with a float exactly, by value. *)
Definition xcompare (x y : xreal) : option comparison :=
  match x, y with
  | XNaN, _ | _, XNaN => None
  | XNegInf, XNegInf => Some Eq
  | XNegInf, _ => Some Lt
  | _, XNegInf => Some Gt
  | XPosInf, XPosInf => Some Eq
  | XPosInf, _ => Some Gt
  | _, XPosInf => Some Lt
  | XFin p, XFin q => Some (p ?= q)%Q
  end.

Definition xlt (x y : xreal) : bool :=
  match xcompare x y with
  | Some Lt => true
  | _ => false
  end.

Definition xle (x y : xreal) : bool :=
  match xcompare x y with
  | Some Lt | Some Eq => true
  | _ => false
  end.

(** [a < b]: numbers by value, strings lexicographically, anything else
    is a [TypeError]. *)
Definition py_lt (a b : pyval) : Py bool :=
  match num_value a, num_value b with
  | Some x, Some y => ret (xlt x y)
  | _, _ =>
      match a, b with
      | PyStr s, PyStr t => ret (String.ltb s t)
      | _, _ => raise TypeError
      end
  end.

(** [a <= b]. *)
Definition py_le (a b : pyval) : Py bool :=
  match num_value a, num_value b with
  | Some x, Some y => ret (xle x y)
  | _, _ =>
      match a, b with
      | PyStr s, PyStr t => ret (String.leb s t)
      | _, _ => raise TypeError
      end
  end.

(** ** The classifier *)

(** [lo <= x < hi] is [lo <= x and x < hi]: the second comparison is
    evaluated only when the first holds. *)
Definition py_chain_le_lt (lo x hi : pyval) : Py bool :=
  c <- py_le lo x ;;
  if c : bool then py_lt x hi else ret false.

Definition classify_population (POP : pyval) : Py pyval :=
  c1 <- py_lt POP (PyInt 50) ;;
  if c1 : bool then ret (PyStr "Low")
  else
    c2 <- py_chain_le_lt (PyInt 50) POP (PyInt 250) ;;
    if c2 : bool then ret (PyStr "Medium")
    else ret (PyStr "High").

(** Some floats, in binary64 form. *)
Definition f10 : spec_float := S754_finite false 5629499534213120 (-49).
Definition f50 : spec_float := S754_finite false 7036874417766400 (-47).
Definition f249 : spec_float := S754_finite false 8760908650119168 (-45).
Definition f250 : spec_float := S754_finite false 8796093022208000 (-45).
Definition f250_pred : spec_float := S754_finite false 8796093022207999 (-45).
Definition f1000 : spec_float := S754_finite false 8796093022208000 (-43).

(** 50.0 - 2^-47, the largest binary64 float below 50. *)
Definition f50_pred : spec_float := S754_finite false 7036874417766399 (-47).

(** ** The cascade as an interval table *)

(** The three labels, in the order of the intervals they name. *)
Definition population_labels : list string := ["Low"; "Medium"; "High"].

Fixpoint label_index (l : string) (ls : list string) : option nat :=
  match ls with
  | [] => None
  | l' :: rest =>
      if String.eqb l l' then Some O
      else option_map S (label_index l rest)
  end.

(** The order of the labels: [Low <= Medium <= High]. *)
Definition label_le (l1 l2 : string) : bool :=
  match label_index l1 population_labels, label_index l2 population_labels with
  | Some i, Some j => Nat.leb i j
  | _, _ => false
  end.

(** The label the cascade picks for a number, by its value. *)
Definition cascade_label (x : xreal) : string :=
  if xlt x (XFin 50) then "Low"
  else if xle (XFin 50) x && xlt x (XFin 250) then "Medium"
  else "High".

(** ** The specification's rule table *)

(** Modelled from the spec: [custom_classify], the reusable rule-table
    classifier, is not in the notebooks (they only have the fixed cascade
    above).  Following the specification, it takes a value, an ordered
    sequence of (threshold, label) rules and an optional default; it tries
    [value < threshold] rule by rule, returns the label of the first rule
    that matches, the default when none does, and fails with
    [UnclassifiableValueError] when none does and there is no default. *)
Fixpoint custom_classify (value : pyval) (predicate_table : list (pyval * string))
  (default : option string) : Py pyval :=
  match predicate_table with
  | [] =>
      match default with
      | Some label => ret (PyStr label)
      | None => raise UnclassifiableValueError
      end
  | (threshold, label) :: rest =>
      c <- py_lt value threshold ;;
      if c : bool then ret (PyStr label)
      else custom_classify value rest default
  end.

(** The cascade of [classify_population] as a rule table:
    [< 50 -> Low], [< 250 -> Medium], default [High]. *)
Definition population_rules : list (pyval * string) :=
  [(PyInt 50, "Low"); (PyInt 250, "Medium")].

Definition population_default : option string := Some "High".

(** ** The specification's classification scheme *)

(** Modelled from the spec: a classification scheme, the break-points in
    ascending order with one label per interval; the notebooks have no
    such type of their own. *)
Record Scheme : Type := {
  breaks : list Q;
  labels : list string
}.

Definition well_formed (s : Scheme) : Prop :=
  List.length (labels s) = S (List.length (breaks s)).

(** The number of break-points at or below the value: the index of the
    half-open interval that holds it, the first interval for everything
    below the first break-point and the last for everything from the last
    break-point on. *)
Definition bin_index (x : xreal) (bs : list Q) : nat :=
  List.length (filter (fun b => xle (XFin b) x) bs).

(** Modelled from the spec: [classify], the label of the interval of the
    scheme that holds the value; the notebooks have no general version. *)
Definition classify (x : xreal) (s : Scheme) : option string :=
  nth_error (labels s) (bin_index x (breaks s)).

Definition population_scheme : Scheme :=
  {| breaks := [50; 250]%Q; labels := population_labels |}.

(** ** The cell that applies the classifier to the table *)

(** After the definition the same cell runs

<<
    pop_1km["POP_class"] = pop_1km['POP'].apply(classify_population)
>>

    on the table [pop_1km].  The table is a pandas object; what the cell
    relies on is modelled here.  A table is its columns, in order, each a
    label and the entries of the rows; two columns may carry the same
    label.  [df[name]] selects the columns of that label: none is a
    [KeyError], one is that column, several are a table of them.
    [Series.apply(func)] calls [func] on the entries from first to last
    and collects what it returns, an exception of [func] ending the call.
    [df[name] = column] overwrites every column of that label where it
    stands, or adds one after the last when there is none. *)
Definition dataframe : Type := list (string * list pyval).

Definition has_label (name : string) (c : string * list pyval) : bool :=
  String.eqb (fst c) name.

Definition get_columns (name : string) (df : dataframe) : list (list pyval) :=
  map snd (filter (has_label name) df).

Definition overwrite (name : string) (column : list pyval)
  (c : string * list pyval) : string * list pyval :=
  if has_label name c then (name, column) else c.

Definition set_column (name : string) (column : list pyval) (df : dataframe)
  : dataframe :=
  if existsb (has_label name) df then map (overwrite name column) df
  else (df ++ [(name, column)])%list.

Fixpoint Series_apply (func : pyval -> Py pyval) (s : list pyval)
  : Py (list pyval) :=
  match s with
  | [] => ret []
  | v :: rest =>
      r <- func v ;;
      rs <- Series_apply func rest ;;
      ret (r :: rs)
  end.

(** What ends a cell early: a missing column; an exception that came out
    of a comparison of the function applied; or the [ValueError] of asking
    for the truth value of a whole column. *)
Inductive cell_exn : Type :=
| KeyError (key : string)
| Propagated (e : exn)
| ValueError.

Definition is_str (v : pyval) : bool :=
  match v with
  | PyStr _ => true
  | _ => false
  end.

(** The assignment of the cell.  The right-hand side is evaluated first:
    when it raises, nothing is assigned and the table is as it was.

    With one [POP] column the function is applied entry by entry.  With
    several, [pop_1km['POP']] is a table and [apply] hands the function
    whole columns, the first one first: there [POP < 50] compares the
    column entry by entry, which is a [TypeError] at a string and a column
    of truth values otherwise, and the [if] on such a column is a
    [ValueError]; so the cell always fails.  (On a table without rows the
    function is not run and it is the assignment of a table to one label
    that fails, with a [ValueError] too.) *)
Definition classify_cell (pop_1km : dataframe) (g : namespace)
  : option cell_exn * dataframe * namespace :=
  match get_columns "POP" pop_1km with
  | [] => (Some (KeyError "POP"), pop_1km, g)
  | [s] =>
      match Series_apply classify_population s g with
      | (Returned column, g') =>
          (None, set_column "POP_class" column pop_1km, g')
      | (Raised e, g') => (Some (Propagated e), pop_1km, g')
      end
  | s :: _ :: _ =>
      if existsb is_str s then (Some (Propagated TypeError), pop_1km, g)
      else (Some ValueError, pop_1km, g)
  end.

(** Every column has [n] rows. *)
Definition rectangular (n : nat) (df : dataframe) : Prop :=
  Forall (fun c => List.length (snd c) = n) df.

(** The number of rows of a column that carry the label [l]. *)
Definition count_label (l : string) (column : list pyval) : nat :=
  List.length
    (filter (fun r => match r with PyStr s => String.eqb s l | _ => false end)
       column).

(** The column labels of a table are distinct. *)
Definition distinct_labels (df : dataframe) : Prop :=
  NoDup (map fst df).

(** A small table: a numeric [POP] column between two others. *)
Definition sample_table : dataframe :=
  [("id", [PyStr "a"; PyStr "b"; PyStr "c"; PyStr "d"]);
   ("POP", [PyInt 10; PyFloat f250; PyFloat S754_nan; PyInt 50]);
   ("geometry", [PyNone; PyNone; PyNone; PyNone])].

(** * Properties *)

(** ** The monad *)

Lemma bind_ret {A B : Type} (a : A) (k : A -> Py B) (g : namespace) :
  bind (ret a) k g = k a g.
Proof. reflexivity. Qed.

Lemma bind_raise {A B : Type} (e : exn) (k : A -> Py B) (g : namespace) :
  bind (raise e) k g = (Raised e, g).
Proof. reflexivity. Qed.

(** ** The order on numbers *)

Lemma xlt_fin (p q : Q) : xlt (XFin p) (XFin q) = true <-> (p < q)%Q.
Proof.
  unfold xlt; simpl. rewrite Qlt_alt.
  destruct (p ?= q)%Q; split; congruence.
Qed.

Lemma xle_fin (p q : Q) : xle (XFin p) (XFin q) = true <-> (p <= q)%Q.
Proof.
  unfold xle; simpl. rewrite Qle_alt.
  destruct (p ?= q)%Q; split; congruence.
Qed.

Lemma xlt_nan_l (y : xreal) : xlt XNaN y = false.
Proof. reflexivity. Qed.

Lemma xlt_nan_r (x : xreal) : xlt x XNaN = false.
Proof. destruct x; reflexivity. Qed.

Lemma xle_nan_l (y : xreal) : xle XNaN y = false.
Proof. reflexivity. Qed.

Lemma xle_nan_r (x : xreal) : xle x XNaN = false.
Proof. destruct x; reflexivity. Qed.

(** Case analysis on every rational comparison in sight, closing the
    impossible cases by linear arithmetic as they appear. *)
Ltac qcases :=
  repeat match goal with
    | H : context [(?a ?= ?b)%Q] |- _ =>
        destruct (Qcompare_spec a b); simpl in *; try discriminate; try lra
    | |- context [(?a ?= ?b)%Q] =>
        destruct (Qcompare_spec a b); simpl in *; try discriminate; try lra
    end.

Ltac xorder :=
  unfold xlt, xle, xcompare in *; simpl in *;
  try discriminate; qcases; try reflexivity; try discriminate.

Lemma xlt_irrefl (x : xreal) : xlt x x = false.
Proof. destruct x; xorder. Qed.

Lemma xlt_trans (x y z : xreal) :
  xlt x y = true -> xlt y z = true -> xlt x z = true.
Proof. destruct x, y, z; intros; xorder. Qed.

Lemma xle_lt_trans (x y z : xreal) :
  xle x y = true -> xlt y z = true -> xlt x z = true.
Proof. destruct x, y, z; intros; xorder. Qed.

Lemma xlt_le_trans (x y z : xreal) :
  xlt x y = true -> xle y z = true -> xlt x z = true.
Proof. destruct x, y, z; intros; xorder. Qed.

Lemma xle_trans (x y z : xreal) :
  xle x y = true -> xle y z = true -> xle x z = true.
Proof. destruct x, y, z; intros; xorder. Qed.

Lemma xlt_xle (x y : xreal) : xlt x y = true -> xle x y = true.
Proof. destruct x, y; intros; xorder. Qed.

(** On numbers other than NaN the order is total. *)
Lemma xlt_or_xle (x y : xreal) :
  x <> XNaN -> y <> XNaN -> xlt x y = true \/ xle y x = true.
Proof.
  destruct x, y; intros; try congruence; xorder; auto.
Qed.

Lemma xlt_not_xle (x y : xreal) : xlt x y = true -> xle y x = false.
Proof. destruct x, y; intros; xorder. Qed.

Lemma xlt_not_xle_conv (x y : xreal) : xle x y = true -> xlt y x = false.
Proof. destruct x, y; intros; xorder. Qed.

(** ** Comparisons are pure *)

Lemma py_lt_cases (a b : pyval) :
  (exists c, forall g, py_lt a b g = (Returned c, g)) \/
  (forall g, py_lt a b g = (Raised TypeError, g)).
Proof.
  unfold py_lt.
  destruct (num_value a) as [x|], (num_value b) as [y|];
    try (left; eexists; intros; reflexivity);
    destruct a; try (right; intros; reflexivity);
    destruct b; try (right; intros; reflexivity);
    left; eexists; intros; reflexivity.
Qed.

Lemma py_lt_num (a b : pyval) (x y : xreal) (g : namespace) :
  num_value a = Some x -> num_value b = Some y ->
  py_lt a b g = (Returned (xlt x y), g).
Proof. intros Ha Hb. unfold py_lt. rewrite Ha, Hb. reflexivity. Qed.

Lemma py_le_num (a b : pyval) (x y : xreal) (g : namespace) :
  num_value a = Some x -> num_value b = Some y ->
  py_le a b g = (Returned (xle x y), g).
Proof. intros Ha Hb. unfold py_le. rewrite Ha, Hb. reflexivity. Qed.

Lemma py_lt_int_type_error (a : pyval) (z : Z) (g : namespace) :
  num_value a = None -> py_lt a (PyInt z) g = (Raised TypeError, g).
Proof. destruct a; simpl; intros H; try discriminate; reflexivity. Qed.

(** ** What the cascade computes *)

(** On a number the call returns the label of the cascade, and leaves the
    namespace alone. *)
Lemma classify_population_num (v : pyval) (x : xreal) (g : namespace) :
  num_value v = Some x ->
  classify_population v g = (Returned (PyStr (cascade_label x)), g).
Proof.
  intros Hv.
  unfold classify_population, py_chain_le_lt, bind.
  rewrite (py_lt_num v (PyInt 50) x (XFin 50) g Hv eq_refl).
  unfold cascade_label.
  destruct (xlt x (XFin 50)); [reflexivity|].
  rewrite (py_le_num (PyInt 50) v (XFin 50) x g eq_refl Hv).
  destruct (xle (XFin 50) x); simpl; [|reflexivity].
  rewrite (py_lt_num v (PyInt 250) x (XFin 250) g Hv eq_refl).
  destruct (xlt x (XFin 250)); reflexivity.
Qed.

(** On anything else the first comparison raises. *)
Lemma classify_population_not_num (v : pyval) (g : namespace) :
  num_value v = None ->
  classify_population v g = (Raised TypeError, g).
Proof.
  intros Hv. unfold classify_population, bind.
  rewrite (py_lt_int_type_error v 50 g Hv). reflexivity.
Qed.

Lemma classify_population_pure (v : pyval) :
  exists o, forall g, classify_population v g = (o, g).
Proof.
  destruct (num_value v) as [x|] eqn:Hv.
  - exists (Returned (PyStr (cascade_label x))). intros g.
    now apply classify_population_num.
  - exists (Raised TypeError). intros g.
    now apply classify_population_not_num.
Qed.

Lemma cascade_label_cases (x : xreal) :
  cascade_label x = "Low" \/ cascade_label x = "Medium" \/
  cascade_label x = "High".
Proof.
  unfold cascade_label.
  destruct (xlt x (XFin 50)); auto.
  destruct (xle (XFin 50) x && xlt x (XFin 250)); auto.
Qed.

Lemma cascade_label_low (x : xreal) :
  xlt x (XFin 50) = true -> cascade_label x = "Low".
Proof. unfold cascade_label. now intros ->. Qed.

Lemma cascade_label_medium (x : xreal) :
  xle (XFin 50) x = true -> xlt x (XFin 250) = true ->
  cascade_label x = "Medium".
Proof.
  unfold cascade_label. intros H1 H2.
  rewrite H1, H2, (xlt_not_xle_conv _ _ H1). reflexivity.
Qed.

Lemma cascade_label_high (x : xreal) :
  xle (XFin 250) x = true -> cascade_label x = "High".
Proof.
  unfold cascade_label. intros H.
  assert (H50 : xlt x (XFin 50) = false) by (destruct x; xorder).
  rewrite H50, (xlt_not_xle_conv _ _ H), andb_false_r. reflexivity.
Qed.

Lemma cascade_label_nan : cascade_label XNaN = "High".
Proof. reflexivity. Qed.

(** The cascade is monotone in the value. *)
Lemma cascade_label_monotone (x y : xreal) :
  xlt x y = true -> label_le (cascade_label x) (cascade_label y) = true.
Proof.
  intros Hxy. unfold cascade_label.
  destruct (xlt y (XFin 50)) eqn:Hy50.
  - rewrite (xlt_trans _ _ _ Hxy Hy50). reflexivity.
  - destruct (xlt x (XFin 50)) eqn:Hx50.
    + destruct (xle (XFin 50) y && xlt y (XFin 250)); reflexivity.
    + destruct (xlt y (XFin 250)) eqn:Hy250.
      * rewrite (xlt_trans _ _ _ Hxy Hy250), !andb_true_r.
        assert (Hx : xle (XFin 50) x = true) by (destruct x, y; xorder).
        assert (Hy : xle (XFin 50) y = true) by (destruct x, y; xorder).
        rewrite Hx, Hy. reflexivity.
      * rewrite andb_false_r.
        destruct (xle (XFin 50) x && xlt x (XFin 250)); reflexivity.
Qed.

(** ** The documented examples *)

(** C1.  With the break-points 50 and 250 and the labels Low, Medium and
    High, [classify_population] returns Low for 10, Medium for 50, Medium
    for 249 and High for 1000, for the ints and for the floats of these
    values; the break-point 50 itself is in the Medium bin, and the largest
    float below it is in the Low bin. *)
Theorem classify_population_examples (g : namespace) :
  classify_population (PyInt 10) g = (Returned (PyStr "Low"), g) /\
  classify_population (PyInt 50) g = (Returned (PyStr "Medium"), g) /\
  classify_population (PyInt 249) g = (Returned (PyStr "Medium"), g) /\
  classify_population (PyInt 1000) g = (Returned (PyStr "High"), g) /\
  classify_population (PyFloat f10) g = (Returned (PyStr "Low"), g) /\
  classify_population (PyFloat f50) g = (Returned (PyStr "Medium"), g) /\
  classify_population (PyFloat f249) g = (Returned (PyStr "Medium"), g) /\
  classify_population (PyFloat f1000) g = (Returned (PyStr "High"), g) /\
  classify_population (PyFloat f50_pred) g = (Returned (PyStr "Low"), g).
Proof. repeat split; reflexivity. Qed.

(** ** Totality *)

(** C3.  On every number, whatever the namespace, the call returns, and
    what it returns is exactly one label, one of Low, Medium and High: no
    branch of the cascade falls through and no comparison raises. *)
Theorem classify_population_total (v : pyval) (x : xreal) (g : namespace) :
  num_value v = Some x ->
  exists! l : string,
    In l population_labels /\
    classify_population v g = (Returned (PyStr l), g).
Proof.
  intros Hv. exists (cascade_label x). split; [split|].
  - simpl. destruct (cascade_label_cases x) as [-> | [-> | ->]]; auto.
  - now apply classify_population_num.
  - intros l [_ Hl]. rewrite (classify_population_num v x g Hv) in Hl.
    congruence.
Qed.

Lemma classify_population_total_witness :
  exists! l : string,
    In l population_labels /\
    classify_population (PyFloat (S754_infinity true)) [] =
    (Returned (PyStr l), []).
Proof.
  apply (classify_population_total (PyFloat (S754_infinity true)) XNegInf []).
  reflexivity.
Defined.

(** ** Intervals and clamping *)

(** C4.  A number gets the label of the interval that holds it: Low below
    50, however far below; Medium from 50 up to but not including 250;
    High from 250 on, however far above. *)
Theorem classify_population_clamps (v : pyval) (x : xreal) (g : namespace) :
  num_value v = Some x ->
  (xlt x (XFin 50) = true ->
   classify_population v g = (Returned (PyStr "Low"), g)) /\
  (xle (XFin 50) x = true -> xlt x (XFin 250) = true ->
   classify_population v g = (Returned (PyStr "Medium"), g)) /\
  (xle (XFin 250) x = true ->
   classify_population v g = (Returned (PyStr "High"), g)).
Proof.
  intros Hv. rewrite (classify_population_num v x g Hv).
  split; [|split]; intros.
  - now rewrite cascade_label_low.
  - now rewrite cascade_label_medium.
  - now rewrite cascade_label_high.
Qed.

Lemma classify_population_clamps_witness :
  classify_population (PyFloat (S754_infinity true)) [] =
    (Returned (PyStr "Low"), []) /\
  classify_population (PyInt (-1000000)) [] = (Returned (PyStr "Low"), []) /\
  classify_population (PyInt 100) [] = (Returned (PyStr "Medium"), []) /\
  classify_population (PyFloat (S754_infinity false)) [] =
    (Returned (PyStr "High"), []).
Proof.
  split; [|split; [|split]].
  - apply (classify_population_clamps
             (PyFloat (S754_infinity true)) XNegInf [] eq_refl).
    reflexivity.
  - apply (classify_population_clamps
             (PyInt (-1000000)) (XFin (inject_Z (-1000000))) [] eq_refl).
    reflexivity.
  - apply (classify_population_clamps
             (PyInt 100) (XFin (inject_Z 100)) [] eq_refl); reflexivity.
  - apply (classify_population_clamps
             (PyFloat (S754_infinity false)) XPosInf [] eq_refl).
    reflexivity.
Defined.

(** ** Monotonicity *)

(** C5.  If [a < b] for two numbers, the label of [a] is at or below the
    label of [b] in the order Low, Medium, High. *)
Theorem classify_population_monotone
  (a b : pyval) (xa xb : xreal) (g : namespace) :
  num_value a = Some xa -> num_value b = Some xb ->
  xlt xa xb = true ->
  exists la lb : string,
    classify_population a g = (Returned (PyStr la), g) /\
    classify_population b g = (Returned (PyStr lb), g) /\
    label_le la lb = true.
Proof.
  intros Ha Hb Hlt.
  exists (cascade_label xa), (cascade_label xb). split; [|split].
  - now apply classify_population_num.
  - now apply classify_population_num.
  - now apply cascade_label_monotone.
Qed.

Lemma classify_population_monotone_witness :
  exists la lb : string,
    classify_population (PyInt 10) [] = (Returned (PyStr la), []) /\
    classify_population (PyFloat f250) [] = (Returned (PyStr lb), []) /\
    label_le la lb = true.
Proof.
  apply (classify_population_monotone
           (PyInt 10) (PyFloat f250)
           (XFin (inject_Z 10)) (float_value f250) []);
    reflexivity.
Defined.

(** ** Purity *)

(** C7.  The outcome of a call depends on the argument only: in any two
    namespaces the same value gets the same outcome, the namespace is left
    as it was, and calling twice in a row gives twice the result of
    calling once. *)
Theorem classify_population_deterministic (v : pyval) (g1 g2 : namespace) :
  fst (classify_population v g1) = fst (classify_population v g2) /\
  snd (classify_population v g1) = g1 /\
  (r1 <- classify_population v ;;
   r2 <- classify_population v ;;
   ret (r1, r2)) g1
  = (r <- classify_population v ;; ret (r, r)) g1.
Proof.
  destruct (classify_population_pure v) as [o Ho].
  unfold bind. rewrite !Ho. simpl.
  destruct o; rewrite ?Ho; auto.
Qed.

(** ** The upper break-point *)

(** C8.  The break-point 250 itself is in the High bin, as an int and as
    a float, while 249 and the largest float below 250 are still Medium:
    the Medium bin is closed at 50 and open at 250. *)
Theorem classify_population_upper_boundary (g : namespace) :
  classify_population (PyInt 250) g = (Returned (PyStr "High"), g) /\
  classify_population (PyFloat f250) g = (Returned (PyStr "High"), g) /\
  classify_population (PyInt 249) g = (Returned (PyStr "Medium"), g) /\
  classify_population (PyFloat f250_pred) g = (Returned (PyStr "Medium"), g) /\
  classify_population (PyInt 50) g = (Returned (PyStr "Medium"), g) /\
  classify_population (PyFloat f50) g = (Returned (PyStr "Medium"), g).
Proof. repeat split; reflexivity. Qed.

(** ** NaN *)

(** C9.  For NaN, [POP < 50] is false, [50 <= POP] is false and so is the
    chain [50 <= POP < 250], [POP < 250] is false too, and the call
    returns High without raising. *)
Theorem classify_population_nan (g : namespace) :
  py_lt (PyFloat S754_nan) (PyInt 50) g = (Returned false, g) /\
  py_le (PyInt 50) (PyFloat S754_nan) g = (Returned false, g) /\
  py_lt (PyFloat S754_nan) (PyInt 250) g = (Returned false, g) /\
  py_chain_le_lt (PyInt 50) (PyFloat S754_nan) (PyInt 250) g
    = (Returned false, g) /\
  classify_population (PyFloat S754_nan) g = (Returned (PyStr "High"), g).
Proof. repeat split; reflexivity. Qed.

(** ** The range of the classifier *)

(** C10.  Whatever the argument, a call that returns returns one of the
    three label strings; it does not return [None] or any other value.  A
    call raises only for an argument that is not a number, and then a
    [TypeError]. *)
Theorem classify_population_range (v : pyval) (g : namespace) :
  match fst (classify_population v g) with
  | Returned r => In r (map PyStr population_labels)
  | Raised e => e = TypeError /\ num_value v = None
  end.
Proof.
  destruct (num_value v) as [x|] eqn:Hv.
  - rewrite (classify_population_num v x g Hv). simpl.
    destruct (cascade_label_cases x) as [-> | [-> | ->]]; auto.
  - rewrite (classify_population_not_num v g Hv). simpl. auto.
Qed.

(** ** The rule table *)

Lemma custom_classify_first_match
  (v : pyval) (pre : list (pyval * string)) (t : pyval) (l : string)
  (post : list (pyval * string)) (d : option string) (g : namespace) :
  Forall (fun r => py_lt v (fst r) g = (Returned false, g)) pre ->
  py_lt v t g = (Returned true, g) ->
  custom_classify v (pre ++ (t, l) :: post) d g = (Returned (PyStr l), g).
Proof.
  intros Hpre Ht. induction Hpre as [|[t' l'] pre Hr _ IH]; simpl.
  - unfold bind. rewrite Ht. reflexivity.
  - unfold bind. simpl in Hr. rewrite Hr. exact IH.
Qed.

Lemma custom_classify_no_match
  (v : pyval) (table : list (pyval * string)) (d : option string)
  (g : namespace) :
  Forall (fun r => py_lt v (fst r) g = (Returned false, g)) table ->
  custom_classify v table d g =
  match d with
  | Some l => (Returned (PyStr l), g)
  | None => (Raised UnclassifiableValueError, g)
  end.
Proof.
  intros Hall. induction Hall as [|[t' l'] table Hr _ IH]; simpl.
  - destruct d; reflexivity.
  - unfold bind. simpl in Hr. rewrite Hr. exact IH.
Qed.

Lemma custom_classify_unclassifiable
  (v : pyval) (table : list (pyval * string)) (d : option string)
  (g : namespace) :
  custom_classify v table d g = (Raised UnclassifiableValueError, g) <->
  d = None /\
  Forall (fun r => py_lt v (fst r) g = (Returned false, g)) table.
Proof.
  split.
  - induction table as [|[t l] table IH]; simpl.
    + destruct d; [discriminate|]. auto.
    + unfold bind.
      destruct (py_lt_cases v t) as [[c Hc] | He].
      * rewrite Hc. destruct c; [discriminate|].
        intros H. destruct (IH H) as [Hd Hall].
        split; [exact Hd|]. constructor; [apply Hc | exact Hall].
      * rewrite He. discriminate.
  - intros [-> Hall]. now rewrite custom_classify_no_match.
Qed.

Lemma custom_classify_pure
  (v : pyval) (table : list (pyval * string)) (d : option string)
  (g : namespace) :
  snd (custom_classify v table d g) = g.
Proof.
  induction table as [|[t l] table IH]; simpl.
  - destruct d; reflexivity.
  - unfold bind.
    destruct (py_lt_cases v t) as [[c Hc] | He].
    + rewrite Hc. destruct c; [reflexivity | exact IH].
    + rewrite He. reflexivity.
Qed.

(** The cascade of the notebook is the rule table [< 50 -> Low],
    [< 250 -> Medium] with the default High, on every argument. *)
Lemma custom_classify_population (v : pyval) (g : namespace) :
  custom_classify v population_rules population_default g =
  classify_population v g.
Proof.
  destruct (num_value v) as [x|] eqn:Hv.
  - rewrite (classify_population_num v x g Hv).
    unfold population_rules, population_default. simpl. unfold bind.
    rewrite (py_lt_num v (PyInt 50) x (XFin 50) g Hv eq_refl).
    unfold cascade_label.
    destruct (xlt x (XFin 50)) eqn:H50; [reflexivity|].
    rewrite (py_lt_num v (PyInt 250) x (XFin 250) g Hv eq_refl).
    destruct (xlt x (XFin 250)) eqn:H250.
    + assert (Hle : xle (XFin 50) x = true) by (destruct x; xorder).
      rewrite Hle. reflexivity.
    + rewrite andb_false_r. reflexivity.
  - rewrite (classify_population_not_num v g Hv).
    unfold population_rules. simpl. unfold bind.
    rewrite (py_lt_int_type_error v 50 g Hv). reflexivity.
Qed.

(** C2.  [custom_classify] tries the rules in order and returns the label
    of the first rule whose comparison [value < threshold] holds; it
    raises [UnclassifiableValueError] exactly when no rule matches and
    there is no default; it leaves the namespace alone.  With the rules
    [< 50 -> Low], [< 250 -> Medium] and the default High it is
    [classify_population], which therefore never raises that error. *)
Theorem custom_classify_first_match_semantics :
  (forall v pre t l post d g,
      Forall (fun r => py_lt v (fst r) g = (Returned false, g)) pre ->
      py_lt v t g = (Returned true, g) ->
      custom_classify v (pre ++ (t, l) :: post) d g
      = (Returned (PyStr l), g)) /\
  (forall v table d g,
      custom_classify v table d g = (Raised UnclassifiableValueError, g) <->
      d = None /\
      Forall (fun r => py_lt v (fst r) g = (Returned false, g)) table) /\
  (forall v table d g, snd (custom_classify v table d g) = g) /\
  (forall v g,
      custom_classify v population_rules population_default g
      = classify_population v g) /\
  (forall v g,
      fst (classify_population v g) <> Raised UnclassifiableValueError).
Proof.
  split; [|split; [|split; [|split]]].
  - exact custom_classify_first_match.
  - exact custom_classify_unclassifiable.
  - exact custom_classify_pure.
  - exact custom_classify_population.
  - intros v g.
    destruct (num_value v) as [x|] eqn:Hv.
    + rewrite (classify_population_num v x g Hv). discriminate.
    + rewrite (classify_population_not_num v g Hv). discriminate.
Qed.

Lemma custom_classify_first_match_semantics_witness :
  custom_classify (PyInt 100)
    ([(PyInt 50, "Low")] ++ (PyInt 250, "Medium") :: []) None []
  = (Returned (PyStr "Medium"), []).
Proof.
  apply (proj1 custom_classify_first_match_semantics).
  - constructor; [reflexivity | constructor].
  - reflexivity.
Defined.

(** ** The cascade against the specification's scheme *)

Lemma bin_index_bound (x : xreal) (bs : list Q) :
  (bin_index x bs <= List.length bs)%nat.
Proof.
  unfold bin_index. induction bs as [|b bs IH]; simpl; [lia|].
  destruct (xle (XFin b) x); simpl; lia.
Qed.

(** A scheme with one label per interval labels every value. *)
Lemma classify_total (x : xreal) (s : Scheme) :
  well_formed s -> exists l, classify x s = Some l.
Proof.
  unfold well_formed, classify. intros Hwf.
  destruct (nth_error (labels s) (bin_index x (breaks s))) as [l|] eqn:E.
  - now exists l.
  - apply nth_error_None in E.
    pose proof (bin_index_bound x (breaks s)). lia.
Qed.

(** A larger value never falls into an earlier interval. *)
Lemma bin_index_monotone (x y : xreal) (bs : list Q) :
  xle x y = true -> (bin_index x bs <= bin_index y bs)%nat.
Proof.
  intros Hxy. unfold bin_index.
  induction bs as [|b bs IH]; simpl; [lia|].
  destruct (xle (XFin b) x) eqn:Hb.
  - rewrite (xle_trans _ _ _ Hb Hxy). simpl. lia.
  - destruct (xle (XFin b) y); simpl; lia.
Qed.

(** On every number but NaN, [classify_population] returns the label the
    scheme with the break-points 50 and 250 gives. *)
Lemma classify_population_refines_scheme
  (v : pyval) (x : xreal) (g : namespace) :
  num_value v = Some x -> x <> XNaN ->
  exists l,
    classify x population_scheme = Some l /\
    classify_population v g = (Returned (PyStr l), g).
Proof.
  intros Hv Hx. exists (cascade_label x).
  split; [|now apply classify_population_num].
  unfold classify, bin_index, cascade_label, population_scheme. simpl.
  destruct x; try congruence; xorder.
Qed.

(** ** Which values get which label *)

Lemma cascade_label_low_inv (x : xreal) :
  cascade_label x = "Low" -> xlt x (XFin 50) = true.
Proof.
  unfold cascade_label.
  destruct (xlt x (XFin 50)); [reflexivity|].
  destruct (xle (XFin 50) x && xlt x (XFin 250)); discriminate.
Qed.

Lemma cascade_label_medium_inv (x : xreal) :
  cascade_label x = "Medium" ->
  xle (XFin 50) x = true /\ xlt x (XFin 250) = true.
Proof.
  unfold cascade_label.
  destruct (xlt x (XFin 50)); [discriminate|].
  destruct (xle (XFin 50) x), (xlt x (XFin 250)); simpl;
    try discriminate; auto.
Qed.

Lemma cascade_label_high_inv (x : xreal) :
  cascade_label x = "High" -> x = XNaN \/ xle (XFin 250) x = true.
Proof.
  unfold cascade_label.
  destruct (xlt x (XFin 50)) eqn:H50; [discriminate|].
  destruct (xle (XFin 50) x && xlt x (XFin 250)) eqn:Hm; [discriminate|].
  intros _. destruct x; auto; right; xorder.
Qed.

Lemma classify_population_returns_inv
  (v : pyval) (r : pyval) (g g' : namespace) :
  classify_population v g = (Returned r, g') ->
  exists x, num_value v = Some x /\ r = PyStr (cascade_label x).
Proof.
  destruct (num_value v) as [x|] eqn:Hv.
  - rewrite (classify_population_num v x g Hv). intros H.
    exists x. split; [reflexivity | congruence].
  - rewrite (classify_population_not_num v g Hv). discriminate.
Qed.

(** X1.  The label tells the interval: the call returns Low exactly for
    the numbers below 50, Medium exactly for the numbers from 50 up to but
    not including 250, and High exactly for the numbers from 250 on and
    for NaN. *)
Theorem classify_population_preimage (v : pyval) (g : namespace) :
  (classify_population v g = (Returned (PyStr "Low"), g) <->
   exists x, num_value v = Some x /\ xlt x (XFin 50) = true) /\
  (classify_population v g = (Returned (PyStr "Medium"), g) <->
   exists x, num_value v = Some x /\
             xle (XFin 50) x = true /\ xlt x (XFin 250) = true) /\
  (classify_population v g = (Returned (PyStr "High"), g) <->
   exists x, num_value v = Some x /\
             (x = XNaN \/ xle (XFin 250) x = true)).
Proof.
  split; [|split]; split.
  - intros H. destruct (classify_population_returns_inv _ _ _ _ H)
      as (x & Hv & Hr).
    exists x. split; [exact Hv|].
    apply cascade_label_low_inv. congruence.
  - intros (x & Hv & Hx).
    now rewrite (classify_population_num v x g Hv), cascade_label_low.
  - intros H. destruct (classify_population_returns_inv _ _ _ _ H)
      as (x & Hv & Hr).
    exists x. split; [exact Hv|].
    apply cascade_label_medium_inv. congruence.
  - intros (x & Hv & Hlo & Hhi).
    now rewrite (classify_population_num v x g Hv), cascade_label_medium.
  - intros H. destruct (classify_population_returns_inv _ _ _ _ H)
      as (x & Hv & Hr).
    exists x. split; [exact Hv|].
    apply cascade_label_high_inv. congruence.
  - intros (x & Hv & [-> | Hx]).
    + now rewrite (classify_population_num v XNaN g Hv).
    + now rewrite (classify_population_num v x g Hv), cascade_label_high.
Qed.

Lemma classify_population_preimage_witness :
  exists x, num_value (PyFloat f250_pred) = Some x /\
            xle (XFin 50) x = true /\ xlt x (XFin 250) = true.
Proof.
  apply (proj1 (proj1 (proj2 (classify_population_preimage
                                (PyFloat f250_pred) [])))).
  reflexivity.
Defined.

(** Numbers that compare equal have the same place in the order. *)
Lemma xlt_eq_l (x y z : xreal) :
  xcompare x y = Some Eq -> xlt x z = xlt y z.
Proof. destruct x, y, z; intros; xorder. Qed.

Lemma xle_eq_r (x y z : xreal) :
  xcompare x y = Some Eq -> xle z x = xle z y.
Proof. destruct x, y, z; intros; xorder. Qed.

(** X2.  Two numbers of the same value get the same label, whatever their
    types and representations: an int and the float equal to it, the two
    zeros, [True] and 1. *)
Theorem classify_population_equal_values
  (a b : pyval) (xa xb : xreal) (g : namespace) :
  num_value a = Some xa -> num_value b = Some xb ->
  xcompare xa xb = Some Eq ->
  classify_population a g = classify_population b g.
Proof.
  intros Ha Hb Heq.
  rewrite (classify_population_num a xa g Ha),
          (classify_population_num b xb g Hb).
  unfold cascade_label.
  rewrite (xlt_eq_l xa xb (XFin 50) Heq), (xlt_eq_l xa xb (XFin 250) Heq),
          (xle_eq_r xa xb (XFin 50) Heq).
  reflexivity.
Qed.

Lemma classify_population_equal_values_witness :
  classify_population (PyInt 50) [] =
  classify_population (PyFloat (S754_finite false 25 1)) [].
Proof.
  apply (classify_population_equal_values
           (PyInt 50) (PyFloat (S754_finite false 25 1))
           (XFin (inject_Z 50)) (float_value (S754_finite false 25 1)) []);
    reflexivity.
Defined.

(** ** Columns of a table *)

Lemma has_label_overwrite (k : string) (c : list pyval) (x : string * list pyval) :
  has_label k (overwrite k c x) = has_label k x.
Proof.
  unfold overwrite. destruct (has_label k x) eqn:E; [|exact E].
  unfold has_label. simpl. apply String.eqb_refl.
Qed.

Lemma has_label_other (k k' : string) (c : list pyval) (x : string * list pyval) :
  k' <> k -> has_label k' (overwrite k c x) = has_label k' x.
Proof.
  intros Hk. unfold overwrite. destruct (has_label k x) eqn:E; [|reflexivity].
  unfold has_label in *. simpl. apply String.eqb_eq in E. rewrite E.
  reflexivity.
Qed.

Lemma overwrite_other (k k' : string) (c : list pyval) (x : string * list pyval) :
  k' <> k -> has_label k' x = true -> overwrite k c x = x.
Proof.
  intros Hk Hx. unfold overwrite. destruct (has_label k x) eqn:E; [|reflexivity].
  unfold has_label in *. apply String.eqb_eq in E, Hx. congruence.
Qed.

Lemma overwrite_idem (k : string) (c : list pyval) (x : string * list pyval) :
  overwrite k c (overwrite k c x) = overwrite k c x.
Proof.
  unfold overwrite at 2 3. destruct (has_label k x) eqn:E.
  - unfold overwrite, has_label. simpl. now rewrite String.eqb_refl.
  - unfold overwrite. now rewrite E.
Qed.

Lemma no_label_filter (k : string) (df : dataframe) :
  existsb (has_label k) df = false -> filter (has_label k) df = [].
Proof.
  induction df as [|x df IH]; simpl; [reflexivity|].
  destruct (has_label k x); simpl; [discriminate | exact IH].
Qed.

Lemma no_label_overwrite (k : string) (c : list pyval) (df : dataframe) :
  existsb (has_label k) df = false -> map (overwrite k c) df = df.
Proof.
  induction df as [|x df IH]; simpl; [reflexivity|].
  destruct (has_label k x) eqn:E; simpl; [discriminate|].
  intros H. unfold overwrite at 1. now rewrite E, IH.
Qed.

Lemma no_label_existsb (k : string) (df : dataframe) :
  ~ In k (map fst df) -> existsb (has_label k) df = false.
Proof.
  induction df as [|x df IH]; simpl; [reflexivity|].
  intros H. rewrite IH by tauto.
  destruct (has_label k x) eqn:E; [|reflexivity].
  unfold has_label in E. apply String.eqb_eq in E. tauto.
Qed.

(** Assigning to one label leaves the columns of every other label. *)
Lemma get_columns_set_other
  (k k' : string) (c : list pyval) (df : dataframe) :
  k' <> k -> get_columns k' (set_column k c df) = get_columns k' df.
Proof.
  intros Hk. unfold set_column, get_columns.
  destruct (existsb (has_label k) df).
  - induction df as [|x df IH]; simpl; [reflexivity|].
    rewrite (has_label_other k k' c x Hk).
    destruct (has_label k' x) eqn:E; [|exact IH].
    simpl. now rewrite (overwrite_other k k' c x Hk E), IH.
  - rewrite filter_app, map_app. simpl.
    assert (E : has_label k' (k, c) = false).
    { unfold has_label. simpl. apply String.eqb_neq. congruence. }
    rewrite E. simpl. apply app_nil_r.
Qed.

Lemma set_set (k : string) (c : list pyval) (df : dataframe) :
  set_column k c (set_column k c df) = set_column k c df.
Proof.
  unfold set_column at 2 3.
  destruct (existsb (has_label k) df) eqn:E; unfold set_column.
  - assert (E' : existsb (has_label k) (map (overwrite k c) df) = true).
    { rewrite <- E. clear E. induction df as [|x df IH]; simpl;
        [reflexivity|]. now rewrite has_label_overwrite, IH. }
    rewrite E', map_map.
    apply map_ext. intros x. apply overwrite_idem.
  - assert (Hk : has_label k (k, c) = true)
      by (unfold has_label; simpl; apply String.eqb_refl).
    assert (E' : existsb (has_label k) (df ++ [(k, c)]) = true).
    { rewrite existsb_app. cbn [existsb]. rewrite Hk. apply orb_true_r. }
    rewrite E', map_app, (no_label_overwrite k c df E).
    cbn [map]. unfold overwrite. now rewrite Hk.
Qed.

(** With distinct labels a label names at most one column. *)
Lemma get_columns_distinct (k : string) (df : dataframe) :
  distinct_labels df ->
  get_columns k df = [] \/ exists c, get_columns k df = [c].
Proof.
  unfold distinct_labels, get_columns.
  induction df as [|[n c] df IH]; simpl; [auto|].
  intros Hnd. inversion Hnd as [|? ? Hnotin Hnd']; subst.
  destruct (has_label k (n, c)) eqn:E; simpl.
  - right. exists c.
    unfold has_label in E. simpl in E. apply String.eqb_eq in E. subst n.
    now rewrite (no_label_filter k df (no_label_existsb k df Hnotin)).
  - exact (IH Hnd').
Qed.

(** With distinct labels the label assigned to names one column
    afterwards, the one assigned. *)
Lemma get_columns_set_same
  (k : string) (c : list pyval) (df : dataframe) :
  distinct_labels df -> get_columns k (set_column k c df) = [c].
Proof.
  unfold distinct_labels, set_column, get_columns.
  destruct (existsb (has_label k) df) eqn:E.
  - induction df as [|[n c'] df IH]; simpl in *; [discriminate|].
    intros Hnd. inversion Hnd as [|? ? Hnotin Hnd']; subst.
    rewrite has_label_overwrite.
    destruct (has_label k (n, c')) eqn:En; simpl.
    + unfold overwrite at 1. rewrite En. simpl.
      unfold has_label in En. simpl in En. apply String.eqb_eq in En.
      subst n.
      pose proof (no_label_existsb k df Hnotin) as Hno.
      now rewrite (no_label_overwrite k c df Hno), (no_label_filter k df Hno).
    + simpl in E. exact (IH E Hnd').
  - intros _. rewrite filter_app, map_app, (no_label_filter k df E). simpl.
    assert (Hk : has_label k (k, c) = true)
      by (unfold has_label; simpl; apply String.eqb_refl).
    now rewrite Hk.
Qed.

Lemma rectangular_get
  (n : nat) (k : string) (c : list pyval) (df : dataframe) :
  rectangular n df -> In c (get_columns k df) -> List.length c = n.
Proof.
  unfold rectangular, get_columns. intros Hrect Hin.
  apply in_map_iff in Hin as (x & <- & Hx).
  apply filter_In in Hx as [Hx _].
  rewrite Forall_forall in Hrect. exact (Hrect x Hx).
Qed.

Lemma rectangular_set
  (n : nat) (k : string) (c : list pyval) (df : dataframe) :
  rectangular n df -> List.length c = n -> rectangular n (set_column k c df).
Proof.
  unfold rectangular, set_column. intros Hdf Hlen.
  destruct (existsb (has_label k) df).
  - induction Hdf as [|x df Hx Hdf IH]; simpl; constructor; [|exact IH].
    unfold overwrite. destruct (has_label k x); [exact Hlen | exact Hx].
  - apply Forall_app. split; [exact Hdf|].
    constructor; [exact Hlen | constructor].
Qed.

(** ** Applying the classifier to a column *)

(** Either every entry is a number and the call returns their labels in
    order, or some entry is not a number and the call raises. *)
Lemma Series_apply_classify_cases (col : list pyval) (g : namespace) :
  (exists out,
      Series_apply classify_population col g = (Returned out, g) /\
      Forall2 (fun v r => exists x, num_value v = Some x /\
                                    r = PyStr (cascade_label x)) col out) \/
  (Series_apply classify_population col g = (Raised TypeError, g) /\
   Exists (fun v => num_value v = None) col).
Proof.
  induction col as [|v col IH]; simpl.
  - left. exists []. split; [reflexivity | constructor].
  - unfold bind. destruct (num_value v) as [x|] eqn:Hv.
    + rewrite (classify_population_num v x g Hv).
      destruct IH as [(out & Hs & Hall) | (Hs & Hex)]; rewrite Hs.
      * left. exists (PyStr (cascade_label x) :: out).
        split; [reflexivity|]. constructor; [|exact Hall]. now exists x.
      * right. split; [reflexivity|]. now apply Exists_cons_tl.
    + rewrite (classify_population_not_num v g Hv).
      right. split; [reflexivity|]. now apply Exists_cons_hd.
Qed.

Lemma labelled_numbers (col out : list pyval) :
  Forall2 (fun v r => exists x, num_value v = Some x /\
                                r = PyStr (cascade_label x)) col out ->
  Forall (fun v => num_value v <> None) col.
Proof.
  induction 1 as [|v r col out (x & Hv & _) _ IH]; constructor;
    [congruence | exact IH].
Qed.

Lemma numbers_not_exists (col : list pyval) :
  Forall (fun v => num_value v <> None) col ->
  Exists (fun v => num_value v = None) col -> False.
Proof.
  intros Hall Hex. apply Exists_exists in Hex as (v & Hin & Hv).
  rewrite Forall_forall in Hall. exact (Hall v Hin Hv).
Qed.

(** X3.  Applied to a column of numbers, the classifier returns a column
    of the same rows in the same order: each entry is what the function
    returns on the entry of that row, one of the three labels. *)
Theorem Series_apply_classify_numbers (col : list pyval) (g : namespace) :
  Forall (fun v => num_value v <> None) col ->
  exists out,
    Series_apply classify_population col g = (Returned out, g) /\
    Forall2 (fun v r => classify_population v g = (Returned r, g) /\
                        In r (map PyStr population_labels)) col out.
Proof.
  intros Hnum.
  destruct (Series_apply_classify_cases col g)
    as [(out & Hs & Hall) | (_ & Hex)].
  - exists out. split; [exact Hs|].
    eapply Forall2_impl; [|exact Hall].
    intros v r (x & Hv & ->). split.
    + now apply classify_population_num.
    + simpl. destruct (cascade_label_cases x) as [-> | [-> | ->]]; auto.
  - destruct (numbers_not_exists col Hnum Hex).
Qed.

Lemma Series_apply_classify_numbers_witness :
  exists out,
    Series_apply classify_population
      [PyInt 10; PyFloat f250; PyFloat S754_nan; PyInt 50] []
    = (Returned out, []) /\
    Forall2 (fun v r => classify_population v [] = (Returned r, []) /\
                        In r (map PyStr population_labels))
      [PyInt 10; PyFloat f250; PyFloat S754_nan; PyInt 50] out.
Proof.
  apply (Series_apply_classify_numbers
           [PyInt 10; PyFloat f250; PyFloat S754_nan; PyInt 50] []).
  repeat constructor; discriminate.
Defined.

(** X4.  Applying the classifier to a column raises exactly when some
    entry is not a number; the exception is then a [TypeError], never
    another one, and the namespace is untouched. *)
Theorem Series_apply_classify_raises (col : list pyval) (g : namespace) :
  (Exists (fun v => num_value v = None) col <->
   Series_apply classify_population col g = (Raised TypeError, g)) /\
  (forall e g',
      Series_apply classify_population col g = (Raised e, g') ->
      e = TypeError /\ g' = g).
Proof.
  destruct (Series_apply_classify_cases col g)
    as [(out & Hs & Hall) | (Hs & Hex)]; rewrite Hs.
  - split; [split|].
    + intros Hex.
      destruct (numbers_not_exists col (labelled_numbers col out Hall) Hex).
    + discriminate.
    + discriminate.
  - split; [split; auto|].
    intros e g' [= <- <-]. auto.
Qed.

Lemma Series_apply_classify_raises_witness :
  Series_apply classify_population [PyInt 10; PyNone; PyInt 300] []
  = (Raised TypeError, []).
Proof.
  apply (proj1 (Series_apply_classify_raises
                  [PyInt 10; PyNone; PyInt 300] [])).
  apply Exists_cons_tl, Exists_cons_hd. reflexivity.
Defined.

Lemma count_label_cons (l : string) (s : string) (out : list pyval) :
  count_label l (PyStr s :: out) =
  ((if String.eqb s l then 1 else 0) + count_label l out)%nat.
Proof. unfold count_label. simpl. destruct (String.eqb s l); reflexivity. Qed.

(** X5.  When the call returns, every row is in exactly one of the three
    classes: the numbers of Low, Medium and High rows add up to the number
    of rows of the column. *)
Theorem Series_apply_classify_partition
  (col out : list pyval) (g g' : namespace) :
  Series_apply classify_population col g = (Returned out, g') ->
  (count_label "Low" out + count_label "Medium" out
   + count_label "High" out)%nat = List.length col.
Proof.
  intros Hret.
  destruct (Series_apply_classify_cases col g)
    as [(out' & Hs & Hall) | (Hs & _)]; rewrite Hs in Hret;
    [|discriminate].
  injection Hret as <- _. clear Hs.
  induction Hall as [|v r col out' (x & _ & ->) _ IH]; [reflexivity|].
  rewrite !count_label_cons. simpl List.length.
  destruct (cascade_label_cases x) as [-> | [-> | ->]]; simpl; lia.
Qed.

Lemma Series_apply_classify_partition_witness :
  (count_label "Low" [PyStr "Low"; PyStr "High"; PyStr "High"; PyStr "Medium"]
   + count_label "Medium"
       [PyStr "Low"; PyStr "High"; PyStr "High"; PyStr "Medium"]
   + count_label "High"
       [PyStr "Low"; PyStr "High"; PyStr "High"; PyStr "Medium"])%nat
  = List.length [PyInt 10; PyFloat f250; PyFloat S754_nan; PyInt 50].
Proof.
  apply (Series_apply_classify_partition
           [PyInt 10; PyFloat f250; PyFloat S754_nan; PyInt 50]
           [PyStr "Low"; PyStr "High"; PyStr "High"; PyStr "Medium"] [] []).
  reflexivity.
Defined.

(** ** The cell *)

Lemma POP_not_POP_class : "POP" <> "POP_class".
Proof. discriminate. Qed.

Lemma sample_table_distinct : distinct_labels sample_table.
Proof.
  unfold distinct_labels, sample_table. simpl.
  repeat (constructor; [simpl; intuition discriminate|]). constructor.
Qed.

(** X6.  On a table with distinct column labels whose [POP] column holds
    numbers, the cell succeeds: afterwards the table has a column
    [POP_class] with the label of each row's [POP] entry, row by row, and
    the columns of every other label, [POP] included, are as they were. *)
Theorem classify_cell_adds_column
  (df : dataframe) (col : list pyval) (g : namespace) :
  distinct_labels df ->
  get_columns "POP" df = [col] ->
  Forall (fun v => num_value v <> None) col ->
  exists df' out,
    classify_cell df g = (None, df', g) /\
    get_columns "POP_class" df' = [out] /\
    Forall2 (fun v r => classify_population v g = (Returned r, g)) col out /\
    (forall c, c <> "POP_class" -> get_columns c df' = get_columns c df).
Proof.
  intros Hdist Hpop Hnum.
  destruct (Series_apply_classify_cases col g)
    as [(out & Hs & Hall) | (_ & Hex)];
    [|destruct (numbers_not_exists col Hnum Hex)].
  exists (set_column "POP_class" out df), out.
  split; [|split; [|split]].
  - unfold classify_cell. now rewrite Hpop, Hs.
  - now apply get_columns_set_same.
  - eapply Forall2_impl; [|exact Hall].
    intros v r (x & Hv & ->). now apply classify_population_num.
  - intros c Hc. now apply get_columns_set_other.
Qed.

Lemma classify_cell_adds_column_witness :
  exists df' out,
    classify_cell sample_table [] = (None, df', []) /\
    get_columns "POP_class" df' = [out] /\
    Forall2 (fun v r => classify_population v [] = (Returned r, []))
      [PyInt 10; PyFloat f250; PyFloat S754_nan; PyInt 50] out /\
    (forall c, c <> "POP_class" ->
               get_columns c df' = get_columns c sample_table).
Proof.
  apply (classify_cell_adds_column sample_table
           [PyInt 10; PyFloat f250; PyFloat S754_nan; PyInt 50] []).
  - exact sample_table_distinct.
  - reflexivity.
  - repeat constructor; discriminate.
Defined.

(** X7.  The cell keeps the table rectangular: if every column has [n]
    rows before the cell, every column has [n] rows after it, the new
    column included, whether the cell succeeds or fails. *)
Theorem classify_cell_rectangular
  (n : nat) (df : dataframe) (g : namespace) :
  rectangular n df ->
  rectangular n (snd (fst (classify_cell df g))).
Proof.
  intros Hrect. unfold classify_cell.
  destruct (get_columns "POP" df) as [|col [|col' rest]] eqn:Hpop;
    [exact Hrect | | destruct (existsb is_str col); exact Hrect].
  destruct (Series_apply_classify_cases col g)
    as [(out & Hs & Hall) | (Hs & _)]; rewrite Hs; simpl;
    [|exact Hrect].
  apply rectangular_set; [exact Hrect|].
  rewrite <- (Forall2_length Hall).
  apply (rectangular_get n "POP" col df Hrect).
  rewrite Hpop. now left.
Qed.

Lemma classify_cell_rectangular_witness :
  rectangular 4 (snd (fst (classify_cell sample_table []))).
Proof.
  apply (classify_cell_rectangular 4 sample_table []).
  repeat constructor.
Defined.

(** X8.  Running the cell again changes nothing: the second run ends as
    the first did and leaves the table the first run left. *)
Theorem classify_cell_idempotent (df : dataframe) (g : namespace) :
  classify_cell (snd (fst (classify_cell df g))) (snd (classify_cell df g))
  = classify_cell df g.
Proof.
  unfold classify_cell at 2 3 4.
  destruct (get_columns "POP" df) as [|col [|col' rest]] eqn:Hpop; simpl.
  - unfold classify_cell. now rewrite Hpop.
  - destruct (Series_apply_classify_cases col g)
      as [(out & Hs & _) | (Hs & _)]; rewrite Hs; simpl;
      unfold classify_cell.
    + rewrite (get_columns_set_other "POP_class" "POP" out df
                 POP_not_POP_class).
      now rewrite Hpop, Hs, set_set.
    + now rewrite Hpop, Hs.
  - destruct (existsb is_str col) eqn:Hstr; simpl;
      unfold classify_cell; now rewrite Hpop, Hstr.
Qed.

(** X9.  On a table with distinct column labels the cell fails in two
    cases only: the table has no [POP] column, which is a [KeyError], or
    the column has an entry that is not a number, which is the
    [TypeError] of the comparison.  In both the table is left as it was;
    no column is half written. *)
Theorem classify_cell_failure
  (df df' : dataframe) (e : cell_exn) (g g' : namespace) :
  distinct_labels df ->
  classify_cell df g = (Some e, df', g') ->
  df' = df /\ g' = g /\
  ((e = KeyError "POP" /\ get_columns "POP" df = []) \/
   (e = Propagated TypeError /\
    exists col, get_columns "POP" df = [col] /\
                Exists (fun v => num_value v = None) col)).
Proof.
  intros Hdist. unfold classify_cell.
  destruct (get_columns_distinct "POP" df Hdist) as [Hpop | [col Hpop]];
    rewrite Hpop.
  - intros [= <- <- <-]. repeat split. now left.
  - destruct (Series_apply_classify_cases col g)
      as [(out & Hs & _) | (Hs & Hex)]; rewrite Hs; [discriminate|].
    intros [= <- <- <-]. repeat split. right.
    split; [reflexivity|]. now exists col.
Qed.

Lemma classify_cell_failure_witness :
  [("POP", [PyInt 10; PyStr "n/a"])] = [("POP", [PyInt 10; PyStr "n/a"])] /\
  @nil (string * pyval) = [] /\
  ((Propagated TypeError = KeyError "POP" /\
    get_columns "POP" [("POP", [PyInt 10; PyStr "n/a"])] = []) \/
   (Propagated TypeError = Propagated TypeError /\
    exists col,
      get_columns "POP" [("POP", [PyInt 10; PyStr "n/a"])] = [col] /\
      Exists (fun v => num_value v = None) col)).
Proof.
  apply (classify_cell_failure
           [("POP", [PyInt 10; PyStr "n/a"])]
           [("POP", [PyInt 10; PyStr "n/a"])]
           (Propagated TypeError) [] []).
  - repeat constructor. simpl. tauto.
  - reflexivity.
Defined.
